(** * Session.cpp: dependency injection of a Clock into a Session

  A shallow embedding of [src/Session.cpp] and of the duration formatter
  [SessionReport::displayTime] it calls.

  - [std::time_t] is the signed 64-bit integer of an LP64 platform: a [Z]
    with the wrap-around of its arithmetic written out.
  - Clock objects and Session objects live in a memory of typed cells.
    A Session holds the _address_ of its Clock ([const Clock& clock]); a
    Clock whose lifetime has ended leaves a dead cell behind, and a
    virtual call through a reference to it has no defined behaviour.
  - Every operation runs in a small state-and-outcome monad: it returns a
    value and a new memory, or it has undefined behaviour, or an
    [assert] aborts the process. *)

From Stdlib Require Import ZArith Ascii String List Lia.
From stdpp Require Import base option gmap strings.

Local Open Scope string_scope.
Local Open Scope Z_scope.

(** ** std::time_t and int *)

Module TimeT.

(** Width of [std::time_t] (glibc, LP64: [long]). *)
Definition bits : Z := 64.
Definition min_value : Z := - 2 ^ (bits - 1).
Definition max_value : Z := 2 ^ (bits - 1) - 1.

Definition in_range (z : Z) : Prop := min_value <= z <= max_value.

(** Two's complement reduction of an integer into the range of [time_t]. *)
Definition wrap (z : Z) : Z :=
  (z - min_value) mod 2 ^ bits + min_value.

(** [a - b] on two [time_t] values. *)
Definition sub (a b : Z) : Z := wrap (a - b).

(** Range of the template parameter [int Length]. *)
Definition int_min : Z := - 2 ^ 31.
Definition int_max : Z := 2 ^ 31 - 1.
Definition int_range (z : Z) : Prop := int_min <= z <= int_max.

(** Conversion [int -> time_t] of a [return] statement. *)
Definition of_int (z : Z) : Z := wrap z.

End TimeT.

(** ** SessionReport::displayTime *)

Module SessionReport.

Definition digit_char (d : Z) : ascii := ascii_of_nat (48 + Z.to_nat d).

(** Decimal digits of a non-negative number, most significant first.
    [fuel] bounds the number of digits after the first one. *)
Fixpoint decimal_go (fuel : nat) (n : Z) (acc : string) : string :=
  let acc' := String (digit_char (n mod 10)) acc in
  match fuel with
  | O => acc'
  | S fuel' => if n <? 10 then acc' else decimal_go fuel' (n / 10) acc'
  end.

Definition decimal (n : Z) : string :=
  decimal_go (Z.to_nat (Z.log2 n)) n "".

Definition to_string (n : Z) : string :=
  if n <? 0 then String "-" (decimal (- n)) else decimal n.

Fixpoint fill (c : ascii) (k : nat) (s : string) : string :=
  match k with
  | O => s
  | S k' => String c (fill c k' s)
  end.

(** A field of minimum width [w], padded on the left with ['0']. *)
Definition zero_padded (w : nat) (n : Z) : string :=
  let s := to_string n in
  fill "0" (w - String.length s) s.

(** Modelled from the spec: [SessionReport::displayTime], declared in
    [SessionReport.hpp], which is not among the sources.  Section 4.3:
    hours = totalSeconds / 3600, minutes = (totalSeconds % 3600) / 60,
    seconds = totalSeconds % 60, with the truncating [/] and [%] of C++,
    formatted as zero-padded two-digit fields joined by colons. *)
Definition displayTime (totalSeconds : Z) : string :=
  let hours := Z.quot totalSeconds 3600 in
  let minutes := Z.quot (Z.rem totalSeconds 3600) 60 in
  let seconds := Z.rem totalSeconds 60 in
  zero_padded 2 hours +:+ ":" +:+ zero_padded 2 minutes +:+ ":"
    +:+ zero_padded 2 seconds.

(** *** Reading a formatted duration back *)

Definition digit_value (c : ascii) : option Z :=
  let n := Z.of_nat (nat_of_ascii c) in
  if (48 <=? n) && (n <=? 57) then Some (n - 48) else None.

Definition parse_field (a b : ascii) : option Z :=
  match digit_value a, digit_value b with
  | Some x, Some y => Some (10 * x + y)
  | _, _ => None
  end.

(** The number a string of decimal digits denotes. *)
Fixpoint decimal_value_go (s : string) (acc : Z) : option Z :=
  match s with
  | EmptyString => Some acc
  | String c s' =>
      match digit_value c with
      | Some d => decimal_value_go s' (10 * acc + d)
      | None => None
      end
  end.

Definition decimal_value (s : string) : option Z := decimal_value_go s 0.

Definition is_colon (c : ascii) : bool := Ascii.eqb c ":".

(** Accepts exactly the strings of the shape [HH:MM:SS]: eight
    characters, two decimal digits in each field, colons between. *)
Definition parse_HH_MM_SS (s : string) : option (Z * Z * Z) :=
  match s with
  | String h1 (String h2 (String c1 (String m1 (String m2
      (String c2 (String s1 (String s2 EmptyString))))))) =>
      if is_colon c1 && is_colon c2 then
        match parse_field h1 h2, parse_field m1 m2, parse_field s1 s2 with
        | Some h, Some m, Some sec => Some (h, m, sec)
        | _, _, _ => None
        end
      else None
  | _ => None
  end.

(** The two decimal digits of a number below one hundred. *)
Definition two_digits (n : Z) : string :=
  String (digit_char (n / 10)) (String (digit_char (n mod 10)) "").

End SessionReport.


(** ** Memory, outcomes and the monad of the program *)

Definition time_t := Z.
Definition loc := positive.

(** The abstract class [Clock]: its two virtual member functions.  Both
    are [const]; what they may read is the calendar time [now] at the
    moment of the call. *)
Record Clock := {
  start : Z -> time_t;
  stop : Z -> time_t
}.

(** [std::time(nullptr)] when the calendar time is [now]. *)
Definition time (now : Z) : time_t := TimeT.wrap now.

Definition TimeClock : Clock := {|
  start := fun now => time now;        (* return stop(); *)
  stop := fun now => time now          (* return std::time(nullptr); *)
|}.

Definition TenMinuteClock : Clock := {|
  start := fun _ => TimeT.of_int 0;
  stop := fun _ => TimeT.of_int (60 * 10)
|}.

Definition MockClock (Length : Z) : Clock := {|
  start := fun _ => TimeT.of_int 0;
  stop := fun _ => TimeT.of_int Length
|}.

(** A Clock object in memory: alive, or past the end of its lifetime. *)
Inductive cell := Live (k : Clock) | Dead.

(** The data members of [Session].  [stop_time] has no initialiser: it
    holds an indeterminate value ([None]) until [stop()] assigns it. *)
Record Session := {
  clock : loc;
  start_time : time_t;
  stop_time : option time_t
}.

Record Memory := {
  clocks : gmap loc cell;
  sessions : gmap loc Session
}.

Definition empty_memory : Memory := {| clocks := ∅; sessions := ∅ |}.

Inductive undefined :=
| DeadClock            (* member call through a reference to a dead Clock *)
| DeadSession          (* member call on something that is no Session *)
| IndeterminateValue.  (* read of a data member never written *)

Inductive outcome (A : Type) :=
| Returns (a : A) (m : Memory)
| Undefined (u : undefined)
| Aborted.
Arguments Returns {A} a m.
Arguments Undefined {A} u.
Arguments Aborted {A}.

Definition M (A : Type) : Type := Memory -> outcome A.

#[global] Instance M_ret : MRet M := fun A a m => Returns a m.

#[global] Instance M_bind : MBind M := fun A B f c m =>
  match c m with
  | Returns a m' => f a m'
  | Undefined u => Undefined u
  | Aborted => Aborted
  end.

Definition undefined_behaviour {A} (u : undefined) : M A :=
  fun _ => Undefined u.

(** The value an outcome carries, without the memory. *)
Definition value {A} (o : outcome A) : option A :=
  match o with
  | Returns a _ => Some a
  | _ => None
  end.

(** *** Clock objects *)

(** Definition of a Clock object (a local variable or a temporary). *)
Definition new_clock (k : Clock) : M loc := fun m =>
  let a := fresh (dom (clocks m)) in
  Returns a {| clocks := <[a := Live k]> (clocks m); sessions := sessions m |}.

(** End of the lifetime of the Clock object at [a]. *)
Definition end_clock (a : loc) : M unit := fun m =>
  Returns tt {| clocks := <[a := Dead]> (clocks m); sessions := sessions m |}.

(** Virtual dispatch through a [const Clock&]. *)
Definition deref (a : loc) : M Clock := fun m =>
  match clocks m !! a with
  | Some (Live k) => Returns k m
  | _ => Undefined DeadClock
  end.

Definition call_start (a : loc) (now : Z) : M time_t :=
  k ← deref a; mret (start k now).

Definition call_stop (a : loc) (now : Z) : M time_t :=
  k ← deref a; mret (stop k now).

(** *** class Session *)

Definition get_session (this : loc) : M Session := fun m =>
  match sessions m !! this with
  | Some s => Returns s m
  | None => Undefined DeadSession
  end.

Definition put_session (this : loc) (s : Session) : M unit := fun m =>
  Returns tt {| clocks := clocks m; sessions := <[this := s]> (sessions m) |}.

Definition alloc_session (s : Session) : M loc := fun m =>
  let this := fresh (dom (sessions m)) in
  Returns this {| clocks := clocks m; sessions := <[this := s]> (sessions m) |}.

Definition end_session (this : loc) : M unit := fun m =>
  Returns tt {| clocks := clocks m; sessions := delete this (sessions m) |}.

(** [Session(const Clock& clock) : clock(clock), start_time(clock.start())]
    with an explicit argument. *)
Definition Session_ctor (now : Z) (clock_ref : loc) : M loc :=
  t ← call_start clock_ref now;
  alloc_session {| clock := clock_ref; start_time := t; stop_time := None |}.

(** [Session s;]: the default argument [TimeClock()] is a temporary that
    lives until the end of the full-expression holding the constructor
    call. *)
Definition Session_default (now : Z) : M loc :=
  tmp ← new_clock TimeClock;
  this ← Session_ctor now tmp;
  _ ← end_clock tmp;
  mret this.

(** [void stop() { stop_time = clock.stop(); }] *)
Definition Session_stop (now : Z) (this : loc) : M unit :=
  s ← get_session this;
  t ← call_stop (clock s) now;
  put_session this
    {| clock := clock s; start_time := start_time s; stop_time := Some t |}.

(** [std::time_t seconds() { return stop_time - start_time; }] *)
Definition Session_seconds (this : loc) : M time_t :=
  s ← get_session this;
  match stop_time s with
  | Some t => mret (TimeT.sub t (start_time s))
  | None => undefined_behaviour IndeterminateValue
  end.

(** *** main *)

Definition assert (b : bool) : M unit := fun m =>
  if b then Returns tt m else Aborted.

(** The 2-second session.  [t0] and [t1] are the calendar times at the
    declaration of [s] and at [s.stop()], before and after [sleep(2)]. *)
Definition main_block1 (t0 t1 : Z) : M unit :=
  s ← Session_default t0;
  _ ← Session_stop t1 s;
  sec ← Session_seconds s;
  _ ← assert (String.eqb (SessionReport.displayTime sec) "00:00:02");
  end_session s.

(** A 10-minute session on a local Clock object [k]. *)
Definition main_block (k : Clock) (t0 t1 : Z) : M unit :=
  c ← new_clock k;
  s ← Session_ctor t0 c;
  _ ← Session_stop t1 s;
  sec ← Session_seconds s;
  _ ← assert (String.eqb (SessionReport.displayTime sec) "00:10:00");
  _ ← end_session s;
  end_clock c.

Definition main_block2 : Z -> Z -> M unit := main_block TenMinuteClock.
Definition main_block3 : Z -> Z -> M unit := main_block (MockClock (10 * 60)).

Definition main (t0 t1 t2 t3 t4 t5 : Z) : M Z :=
  _ ← main_block1 t0 t1;
  _ ← main_block2 t2 t3;
  _ ← main_block3 t4 t5;
  mret 0.

(** ** Clients of the Session interface *)

(** Two Sessions, each on a [MockClock] instance of its own
    ([MockClock<A> ca; MockClock<B> cb; Session sa(ca); Session sb(cb);]),
    stopped in the order given by [a_first]. *)
Definition two_sessions (A B : Z) (a_first : bool) (t1 t2 t3 t4 : Z)
  : M (time_t * time_t) :=
  ca ← new_clock (MockClock A);
  cb ← new_clock (MockClock B);
  sa ← Session_ctor t1 ca;
  sb ← Session_ctor t2 cb;
  _ ← (if a_first
       then (_ ← Session_stop t3 sa; Session_stop t4 sb)
       else (_ ← Session_stop t3 sb; Session_stop t4 sa));
  a ← Session_seconds sa;
  b ← Session_seconds sb;
  mret (a, b).

(** The calls a client can make on Sessions, and what it sees of them. *)
Inductive call :=
| Construct (now : Z) (clock_ref : loc)
| Stop (now : Z) (this : loc)
| Seconds (this : loc).

Inductive reply :=
| Constructed (this : loc)
| Stopped
| Elapsed (t : time_t).

Definition perform (c : call) : M reply :=
  match c with
  | Construct now clock_ref =>
      this ← Session_ctor now clock_ref; mret (Constructed this)
  | Stop now this => _ ← Session_stop now this; mret Stopped
  | Seconds this => t ← Session_seconds this; mret (Elapsed t)
  end.

Fixpoint perform_all (cs : list call) : M (list reply) :=
  match cs with
  | [] => mret []
  | c :: cs' => r ← perform c; rs ← perform_all cs'; mret (r :: rs)
  end.

(** The existing Session a call acts on. *)
Definition target (c : call) : option loc :=
  match c with
  | Construct _ _ => None
  | Stop _ this => Some this
  | Seconds this => Some this
  end.

(** A client that defines a Clock object [k] and then makes the calls
    [client c], which may mention the address [c] of that Clock. *)
Definition run_with (k : Clock) (client : loc -> list call)
  : M (list reply) :=
  c ← new_clock k; perform_all (client c).

(** Two Clocks that no call can tell apart. *)
Definition clock_equiv (k1 k2 : Clock) : Prop :=
  forall now, start k1 now = start k2 now /\ stop k1 now = stop k2 now.

Definition cell_equiv (c1 c2 : cell) : Prop :=
  match c1, c2 with
  | Live k1, Live k2 => clock_equiv k1 k2
  | Dead, Dead => True
  | _, _ => False
  end.

Definition memory_equiv (m1 m2 : Memory) : Prop :=
  sessions m1 = sessions m2 /\
  forall a,
    match clocks m1 !! a, clocks m2 !! a with
    | Some c1, Some c2 => cell_equiv c1 c2
    | None, None => True
    | _, _ => False
    end.

Definition outcome_equiv {A} (o1 o2 : outcome A) : Prop :=
  match o1, o2 with
  | Returns a1 m1, Returns a2 m2 => a1 = a2 /\ memory_equiv m1 m2
  | Undefined u1, Undefined u2 => u1 = u2
  | Aborted, Aborted => True
  | _, _ => False
  end.

(** The memory right after [TenMinuteClock clock;] in an empty scope. *)
Definition one_clock : Memory :=
  {| clocks := {[ 1%positive := Live TenMinuteClock ]}; sessions := ∅ |}.


(** The same scope after [Session s(clock); s.stop();]. *)
Definition one_stopped : Memory :=
  {| clocks := {[ 1%positive := Live TenMinuteClock ]};
     sessions := {[ 1%positive :=
       {| clock := 1%positive; start_time := 0; stop_time := Some 600 |} ]} |}.

(** A Session on a temporary Clock, [Session s{TenMinuteClock()};]: the
    caller's temporary dies at the end of the declaration. *)
Definition Session_on_temporary (k : Clock) (now : Z) : M loc :=
  tmp ← new_clock k;
  this ← Session_ctor now tmp;
  _ ← end_clock tmp;
  mret this.

(** The memory right after [TimeClock clock;] in an empty scope. *)
Definition one_time_clock : Memory :=
  {| clocks := {[ 1%positive := Live TimeClock ]}; sessions := ∅ |}.

(** A scope whose only Session outlived its Clock. *)
Definition one_dangling : Memory :=
  {| clocks := {[ 1%positive := Dead ]};
     sessions := {[ 1%positive :=
       {| clock := 1%positive; start_time := 0; stop_time := Some 600 |} ]} |}.

(** * Properties *)

(** ** The duration formatter *)

Section Formatter.
Import SessionReport.

Lemma decimal_go_digit (fuel : nat) (n : Z) (acc : string) :
  0 <= n < 10 -> decimal_go fuel n acc = String (digit_char n) acc.
Proof.
  intros Hn.
  assert (Hlt : (n <? 10) = true) by (apply Z.ltb_lt; lia).
  destruct fuel as [|fuel]; simpl; rewrite ?Hlt, Z.mod_small by lia; reflexivity.
Qed.

Lemma decimal_one_digit (n : Z) :
  0 <= n < 10 -> decimal n = String (digit_char n) "".
Proof. intros Hn. unfold decimal. now apply decimal_go_digit. Qed.

Lemma decimal_two_digits (n : Z) :
  10 <= n < 100 -> decimal n = two_digits n.
Proof.
  intros Hn. unfold decimal, two_digits.
  assert (Hlog : 3 <= Z.log2 n).
  { change 3 with (Z.log2 10). apply Z.log2_le_mono. lia. }
  destruct (Z.to_nat (Z.log2 n)) as [|fuel] eqn:Hfuel; [lia|].
  simpl.
  assert (Hge : (n <? 10) = false) by (apply Z.ltb_ge; lia).
  rewrite Hge.
  apply decimal_go_digit.
  split; [apply Z.div_pos; lia | apply Z.div_lt_upper_bound; lia].
Qed.

Lemma zero_padded_two_digits (n : Z) :
  0 <= n < 100 -> zero_padded 2 n = two_digits n.
Proof.
  intros Hn. unfold zero_padded, to_string.
  assert (Hpos : (n <? 0) = false) by (apply Z.ltb_ge; lia).
  rewrite Hpos.
  destruct (Z_lt_ge_dec n 10) as [Hlt|Hge].
  - rewrite decimal_one_digit by lia. simpl. unfold two_digits.
    rewrite Z.div_small, Z.mod_small by lia. reflexivity.
  - rewrite decimal_two_digits by lia. reflexivity.
Qed.

Lemma digit_value_char (d : Z) :
  0 <= d <= 9 -> digit_value (digit_char d) = Some d.
Proof.
  intros Hd. unfold digit_value, digit_char.
  rewrite nat_ascii_embedding by lia.
  replace (Z.of_nat (48 + Z.to_nat d)) with (48 + d) by lia.
  assert (H1 : (48 <=? 48 + d) = true) by (apply Z.leb_le; lia).
  assert (H2 : (48 + d <=? 57) = true) by (apply Z.leb_le; lia).
  rewrite H1, H2. simpl. f_equal. lia.
Qed.

Lemma parse_field_two_digits (n : Z) :
  0 <= n < 100 ->
  parse_field (digit_char (n / 10)) (digit_char (n mod 10)) = Some n.
Proof.
  intros Hn. unfold parse_field.
  assert (H10 : 0 <= n / 10 <= 9).
  { split; [apply Z.div_pos; lia|].
    assert (n / 10 < 10) by (apply Z.div_lt_upper_bound; lia). lia. }
  assert (Hm : 0 <= n mod 10 <= 9).
  { pose proof (Z.mod_pos_bound n 10). lia. }
  rewrite !digit_value_char by assumption.
  f_equal. pose proof (Z.div_mod n 10). lia.
Qed.

(** [decimal] never runs out of fuel: its digits denote the number. *)
Lemma decimal_go_value (fuel : nat) :
  forall (n : Z) (acc : string),
    0 <= n < 2 ^ (Z.of_nat fuel + 1) ->
    decimal_value_go (decimal_go fuel n acc) 0 = decimal_value_go acc n.
Proof.
  assert (Hdigit : forall n acc, 0 <= n ->
            decimal_value_go (String (digit_char (n mod 10)) acc) (n / 10)
            = decimal_value_go acc n).
  { intros n acc Hn. cbn [decimal_value_go].
    pose proof (Z.mod_pos_bound n 10).
    rewrite digit_value_char by lia.
    f_equal. pose proof (Z.div_mod n 10). lia. }
  assert (Hsmall : forall n acc, 0 <= n < 10 ->
            decimal_value_go (String (digit_char (n mod 10)) acc) 0
            = decimal_value_go acc n).
  { intros n acc Hn. rewrite <- (Hdigit n acc) by lia.
    now rewrite (Z.div_small n 10) by lia. }
  induction fuel as [|fuel IH]; intros n acc Hn.
  - cbn [decimal_go]. apply Hsmall. change (2 ^ (Z.of_nat 0 + 1)) with 2 in Hn.
    lia.
  - cbn [decimal_go]. destruct (Z.ltb_spec n 10) as [Hlt|Hge].
    + apply Hsmall. lia.
    + rewrite IH.
      * apply Hdigit. lia.
      * split; [apply Z.div_pos; lia|].
        apply Z.div_lt_upper_bound; [lia|].
        replace (Z.of_nat (S fuel) + 1) with (Z.succ (Z.of_nat fuel + 1)) in Hn
          by lia.
        rewrite Z.pow_succ_r in Hn by lia. lia.
Qed.

Lemma decimal_value_decimal (n : Z) :
  0 <= n -> decimal_value (decimal n) = Some n.
Proof.
  intros Hn. unfold decimal_value, decimal.
  rewrite decimal_go_value; [reflexivity|].
  split; [exact Hn|].
  destruct (Z.eq_dec n 0) as [->|Hne]; [reflexivity|].
  rewrite Z2Nat.id by apply Z.log2_nonneg.
  replace (Z.log2 n + 1) with (Z.succ (Z.log2 n)) by lia.
  apply Z.log2_spec. lia.
Qed.

(** The three fields of a duration below one hundred hours. *)
Lemma fields_bounds (s : Z) :
  0 <= s < 360000 ->
  0 <= s / 3600 < 100 /\ 0 <= s mod 3600 / 60 < 60 /\ 0 <= s mod 60 < 60.
Proof.
  intros Hs.
  pose proof (Z.mod_pos_bound s 3600).
  pose proof (Z.mod_pos_bound s 60).
  repeat split;
    try (apply Z.div_pos; lia); try (apply Z.div_lt_upper_bound; lia); lia.
Qed.

Lemma fields_sum (s : Z) :
  s / 3600 * 3600 + s mod 3600 / 60 * 60 + s mod 60 = s.
Proof.
  pose proof (Z.div_mod s 3600).
  pose proof (Z.div_mod (s mod 3600) 60).
  assert (Hmm : (s mod 3600) mod 60 = s mod 60).
  { apply Z.mod_mod_divide. exists 60. reflexivity. }
  lia.
Qed.

Lemma displayTime_unfold (n : Z) :
  0 <= n ->
  displayTime n =
    zero_padded 2 (n / 3600) +:+ ":" +:+ zero_padded 2 (n mod 3600 / 60)
      +:+ ":" +:+ zero_padded 2 (n mod 60).
Proof.
  intros Hn. unfold displayTime.
  pose proof (Z.mod_pos_bound n 3600).
  rewrite !Z.rem_mod_nonneg by lia.
  rewrite !Z.quot_div_nonneg by lia.
  reflexivity.
Qed.

Lemma displayTime_two_digits (s : Z) :
  0 <= s < 360000 ->
  displayTime s =
    two_digits (s / 3600) +:+ ":" +:+ two_digits (s mod 3600 / 60)
      +:+ ":" +:+ two_digits (s mod 60).
Proof.
  intros Hs. destruct (fields_bounds s Hs) as (Hh & Hm & Hsec).
  rewrite displayTime_unfold by lia.
  rewrite !zero_padded_two_digits by lia. reflexivity.
Qed.

(** C1: for every [0 <= s < 360000], [displayTime s] has exactly eight
    characters of the shape [HH:MM:SS], each field two decimal digits,
    and the three fields read back satisfy
    [hours * 3600 + minutes * 60 + seconds = s]. *)
Theorem displayTime_HH_MM_SS (s : Z) :
  0 <= s < 360000 ->
  String.length (displayTime s) = 8%nat /\
  exists h m sec,
    parse_HH_MM_SS (displayTime s) = Some (h, m, sec) /\
    displayTime s = two_digits h +:+ ":" +:+ two_digits m +:+ ":"
                      +:+ two_digits sec /\
    0 <= h < 100 /\ 0 <= m < 60 /\ 0 <= sec < 60 /\
    h * 3600 + m * 60 + sec = s.
Proof.
  intros Hs. destruct (fields_bounds s Hs) as (Hh & Hm & Hsec).
  rewrite displayTime_two_digits by assumption.
  split; [reflexivity|].
  exists (s / 3600), (s mod 3600 / 60), (s mod 60).
  split.
  - unfold two_digits. cbv beta iota delta [String.append].
    cbn [parse_HH_MM_SS].
    change (is_colon ":") with true. cbn [andb].
    rewrite !parse_field_two_digits by lia. reflexivity.
  - split; [reflexivity|]. repeat split; try lia. apply fields_sum.
Qed.

Lemma displayTime_HH_MM_SS_witness :
  0 <= 86399 < 360000 /\
  String.length (displayTime 86399) = 8%nat.
Proof.
  split; [lia|]. apply (displayTime_HH_MM_SS 86399). lia.
Defined.

(** C2: for every non-negative [totalSeconds], [displayTime] is the join
    with colons of hours = totalSeconds / 3600,
    minutes = (totalSeconds % 3600) / 60 and seconds = totalSeconds % 60,
    each zero-padded to two digits; [displayTime 2] is ["00:00:02"] and
    [displayTime 600] is ["00:10:00"]. *)
Theorem displayTime_algorithm :
  (forall totalSeconds : Z,
     0 <= totalSeconds ->
     let hours := totalSeconds / 3600 in
     let minutes := totalSeconds mod 3600 / 60 in
     let seconds := totalSeconds mod 60 in
     displayTime totalSeconds =
       zero_padded 2 hours +:+ ":" +:+ zero_padded 2 minutes +:+ ":"
         +:+ zero_padded 2 seconds) /\
  displayTime 2 = "00:00:02" /\
  displayTime 600 = "00:10:00".
Proof.
  split; [|split; reflexivity].
  intros n Hn. cbv zeta. now apply displayTime_unfold.
Qed.

Lemma displayTime_algorithm_witness :
  0 <= 3725 /\ displayTime 3725 = "01:02:05".
Proof.
  split; [lia|].
  rewrite (proj1 displayTime_algorithm 3725) by lia. reflexivity.
Defined.

End Formatter.

(** ** Arithmetic of std::time_t *)

Lemma wrap_in_range (z : Z) : TimeT.in_range z -> TimeT.wrap z = z.
Proof.
  unfold TimeT.in_range, TimeT.wrap, TimeT.min_value, TimeT.max_value,
    TimeT.bits.
  change (2 ^ (64 - 1)) with 9223372036854775808.
  change (2 ^ 64) with 18446744073709551616.
  intros Hz. rewrite Z.mod_small by lia. lia.
Qed.


Lemma int_range_in_range (z : Z) : TimeT.int_range z -> TimeT.in_range z.
Proof.
  unfold TimeT.int_range, TimeT.in_range, TimeT.int_min, TimeT.int_max,
    TimeT.min_value, TimeT.max_value, TimeT.bits.
  change (2 ^ (64 - 1)) with 9223372036854775808.
  change (2 ^ 31) with 2147483648.
  lia.
Qed.

Lemma of_int_id (z : Z) : TimeT.int_range z -> TimeT.of_int z = z.
Proof. intros Hz. apply wrap_in_range, int_range_in_range, Hz. Qed.

Lemma sub_exact (a b : Z) : TimeT.in_range (a - b) -> TimeT.sub a b = a - b.
Proof. apply wrap_in_range. Qed.

Lemma sub_zero_r (a : Z) : TimeT.in_range a -> TimeT.sub a 0 = a.
Proof. intros Ha. unfold TimeT.sub. rewrite Z.sub_0_r. now apply wrap_in_range. Qed.

(** ** Running the operations *)

Section Running.
Implicit Types (m : Memory) (k : Clock) (s : Session).

Lemma bind_returns {A B} (c : M A) (f : A -> M B) m a m' :
  c m = Returns a m' -> (c ≫= f) m = f a m'.
Proof. intros H. unfold mbind, M_bind. now rewrite H. Qed.

Lemma bind_undefined {A B} (c : M A) (f : A -> M B) m u :
  c m = Undefined u -> (c ≫= f) m = Undefined u.
Proof. intros H. unfold mbind, M_bind. now rewrite H. Qed.

Lemma deref_live m a k :
  clocks m !! a = Some (Live k) -> deref a m = Returns k m.
Proof. intros H. unfold deref. now rewrite H. Qed.

Lemma deref_dead m a :
  clocks m !! a = Some Dead -> deref a m = Undefined DeadClock.
Proof. intros H. unfold deref. now rewrite H. Qed.

Lemma Session_ctor_run m now c k :
  clocks m !! c = Some (Live k) ->
  Session_ctor now c m =
    Returns (fresh (dom (sessions m)))
      {| clocks := clocks m;
         sessions :=
           <[fresh (dom (sessions m)) :=
               {| clock := c; start_time := start k now; stop_time := None |}]>
             (sessions m) |}.
Proof.
  intros H. unfold Session_ctor, call_start.
  rewrite (bind_returns _ _ m (start k now) m).
  - reflexivity.
  - now rewrite (bind_returns _ _ m k m) by now apply deref_live.
Qed.

Lemma Session_ctor_dangling m now c :
  clocks m !! c = Some Dead -> Session_ctor now c m = Undefined DeadClock.
Proof.
  intros H. unfold Session_ctor, call_start.
  apply bind_undefined, bind_undefined. now apply deref_dead.
Qed.

Lemma Session_stop_run m now this s k :
  sessions m !! this = Some s ->
  clocks m !! clock s = Some (Live k) ->
  Session_stop now this m =
    Returns tt
      {| clocks := clocks m;
         sessions :=
           <[this := {| clock := clock s; start_time := start_time s;
                        stop_time := Some (stop k now) |}]> (sessions m) |}.
Proof.
  intros Hs Hk. unfold Session_stop.
  rewrite (bind_returns _ _ m s m) by (unfold get_session; now rewrite Hs).
  unfold call_stop.
  rewrite (bind_returns _ _ m (stop k now) m).
  - reflexivity.
  - now rewrite (bind_returns _ _ m k m) by now apply deref_live.
Qed.

Lemma Session_stop_dangling m now this s :
  sessions m !! this = Some s ->
  clocks m !! clock s = Some Dead ->
  Session_stop now this m = Undefined DeadClock.
Proof.
  intros Hs Hk. unfold Session_stop.
  rewrite (bind_returns _ _ m s m) by (unfold get_session; now rewrite Hs).
  unfold call_stop. apply bind_undefined, bind_undefined.
  now apply deref_dead.
Qed.

Lemma Session_seconds_run m this s t :
  sessions m !! this = Some s ->
  stop_time s = Some t ->
  Session_seconds this m = Returns (TimeT.sub t (start_time s)) m.
Proof.
  intros Hs Ht. unfold Session_seconds.
  rewrite (bind_returns _ _ m s m) by (unfold get_session; now rewrite Hs).
  now rewrite Ht.
Qed.

Lemma Session_seconds_unstopped m this s :
  sessions m !! this = Some s ->
  stop_time s = None ->
  Session_seconds this m = Undefined IndeterminateValue.
Proof.
  intros Hs Ht. unfold Session_seconds.
  rewrite (bind_returns _ _ m s m) by (unfold get_session; now rewrite Hs).
  now rewrite Ht.
Qed.

Lemma fresh_session_unused m : sessions m !! fresh (dom (sessions m)) = None.
Proof. apply not_elem_of_dom, is_fresh. Qed.

Lemma fresh_clock_unused m : clocks m !! fresh (dom (clocks m)) = None.
Proof. apply not_elem_of_dom, is_fresh. Qed.

End Running.

(** ** Sessions on stub Clocks *)

Section Sessions.
Implicit Types (m : Memory) (k : Clock) (s : Session).

(** The constructor reads [clock.start()] once, at construction time, and
    leaves [stop_time] unwritten. *)
Lemma Session_ctor_captures_start m now c k :
  clocks m !! c = Some (Live k) ->
  exists this m1,
    Session_ctor now c m = Returns this m1 /\
    sessions m !! this = None /\
    clocks m1 = clocks m /\
    sessions m1 !! this =
      Some {| clock := c; start_time := start k now; stop_time := None |} /\
    forall other, other <> this -> sessions m1 !! other = sessions m !! other.
Proof.
  intros Hk. eexists _, _. split; [apply (Session_ctor_run _ _ _ _ Hk)|].
  cbn. split; [apply fresh_session_unused|].
  split; [reflexivity|]. split; [apply lookup_insert_eq|].
  intros other Hne. now apply lookup_insert_ne.
Qed.

(** C3: a Session constructed with a stub Clock whose [start()] is 0 and
    whose [stop()] is 600 reports [seconds() = 600] after [stop()],
    whatever the calendar times [t0] at construction and [t1] at the
    [stop()] call. *)
Theorem stub_session_reports_600 m c k (t0 : Z) :
  clocks m !! c = Some (Live k) ->
  (forall now, start k now = 0) ->
  (forall now, stop k now = 600) ->
  exists this m1,
    Session_ctor t0 c m = Returns this m1 /\
    forall t1 : Z, exists m2,
      Session_stop t1 this m1 = Returns tt m2 /\
      Session_seconds this m2 = Returns 600 m2.
Proof.
  intros Hk Hstart Hstop.
  eexists _, _. split; [apply (Session_ctor_run _ _ _ _ Hk)|].
  intros t1. eexists. split.
  - eapply Session_stop_run; cbn; [apply lookup_insert_eq | exact Hk].
  - erewrite Session_seconds_run;
      [| cbn; apply lookup_insert_eq | reflexivity].
    cbn. now rewrite Hstart, Hstop.
Qed.

Lemma stub_session_reports_600_witness :
  exists this m1,
    Session_ctor 1000 1%positive one_clock = Returns this m1 /\
    forall t1 : Z, exists m2,
      Session_stop t1 this m1 = Returns tt m2 /\
      Session_seconds this m2 = Returns 600 m2.
Proof.
  apply (stub_session_reports_600 one_clock 1%positive TenMinuteClock 1000).
  - reflexivity.
  - reflexivity.
  - reflexivity.
Defined.

(** C4: on a stopped Session [seconds()] is [stop_time - start_time] of
    [std::time_t], the exact difference whenever that is a [time_t], and
    it is not clamped: it is negative when [stop_time < start_time]; some
    Clock whose [stop()] is below its [start()] makes [seconds()]
    negative. *)
Theorem seconds_is_difference m this s (t : time_t) :
  sessions m !! this = Some s ->
  stop_time s = Some t ->
  Session_seconds this m = Returns (TimeT.sub t (start_time s)) m /\
  (TimeT.in_range (t - start_time s) ->
     Session_seconds this m = Returns (t - start_time s) m /\
     (t < start_time s -> TimeT.sub t (start_time s) < 0)) /\
  exists k,
    (forall now, stop k now < start k now) /\
    forall m0 c (t0 t1 : Z),
      clocks m0 !! c = Some (Live k) ->
      exists new m1 m2 v,
        Session_ctor t0 c m0 = Returns new m1 /\
        Session_stop t1 new m1 = Returns tt m2 /\
        Session_seconds new m2 = Returns v m2 /\
        v < 0.
Proof.
  intros Hs Ht. split; [now apply Session_seconds_run|]. split.
  - intros Hr. rewrite <- (sub_exact _ _ Hr).
    split; [now apply Session_seconds_run|]. rewrite (sub_exact _ _ Hr). lia.
  - exists {| start := fun _ => 600; stop := fun _ => 0 |}.
    split; [intros now; cbn; lia|].
    intros m0 c t0 t1 Hk.
    eexists _, _, _, _. split; [apply (Session_ctor_run _ _ _ _ Hk)|].
    split; [eapply Session_stop_run; cbn; [apply lookup_insert_eq | exact Hk]|].
    split; [eapply Session_seconds_run; cbn; [apply lookup_insert_eq | reflexivity]|].
    reflexivity.
Qed.

Lemma seconds_is_difference_witness :
  Session_seconds 1%positive one_stopped = Returns (TimeT.sub 600 0) one_stopped.
Proof.
  destruct (seconds_is_difference one_stopped 1%positive
              {| clock := 1%positive; start_time := 0; stop_time := Some 600 |}
              600) as [H _].
  - reflexivity.
  - reflexivity.
  - exact H.
Defined.

(** C6: [stop()] stores a fresh [clock.stop()] reading in [stop_time] and
    changes nothing else: no Clock, no other Session, and neither [clock]
    nor [start_time] of this Session.  A second [stop()] overwrites
    [stop_time], and [seconds()] then reflects the last call. *)
Theorem stop_overwrites_stop_time m this s k (now now' : Z) :
  sessions m !! this = Some s ->
  clocks m !! clock s = Some (Live k) ->
  let stopped t :=
    {| clock := clock s; start_time := start_time s; stop_time := Some t |} in
  exists m1 m2,
    Session_stop now this m = Returns tt m1 /\
    clocks m1 = clocks m /\
    sessions m1 !! this = Some (stopped (stop k now)) /\
    (forall other, other <> this ->
       sessions m1 !! other = sessions m !! other) /\
    Session_stop now' this m1 = Returns tt m2 /\
    Session_stop now' this m = Returns tt m2 /\
    sessions m2 !! this = Some (stopped (stop k now')) /\
    Session_seconds this m2 =
      Returns (TimeT.sub (stop k now') (start_time s)) m2.
Proof.
  intros Hs Hk stopped.
  eexists _, _. split; [now apply (Session_stop_run m now this s k)|].
  cbn. split; [reflexivity|]. split; [apply lookup_insert_eq|].
  split; [intros other Hne; now apply lookup_insert_ne|].
  split.
  { rewrite (Session_stop_run _ now' this (stopped (stop k now)) k);
      [reflexivity | apply lookup_insert_eq | exact Hk]. }
  cbn. rewrite insert_insert_eq.
  split; [now apply (Session_stop_run m now' this s k)|].
  split; [apply lookup_insert_eq|].
  apply (Session_seconds_run _ this (stopped (stop k now')));
    [apply lookup_insert_eq | reflexivity].
Qed.

(** A Session on a live [TimeClock] reports the difference of the two
    readings of [std::time]. *)
Lemma TimeClock_session_seconds m c (t0 t1 : Z) :
  clocks m !! c = Some (Live TimeClock) ->
  exists this m1 m2,
    Session_ctor t0 c m = Returns this m1 /\
    Session_stop t1 this m1 = Returns tt m2 /\
    Session_seconds this m2 = Returns (TimeT.sub (time t1) (time t0)) m2.
Proof.
  intros Hk. eexists _, _, _.
  split; [apply (Session_ctor_run _ _ _ _ Hk)|].
  split.
  - apply (Session_stop_run _ t1 _
             {| clock := c; start_time := time t0; stop_time := None |}
             TimeClock); cbn; [apply lookup_insert_eq | exact Hk].
  - apply (Session_seconds_run _ _
             {| clock := c; start_time := time t0;
                stop_time := Some (time t1) |});
      cbn; [apply lookup_insert_eq | reflexivity].
Qed.

Lemma stop_overwrites_stop_time_witness :
  exists m1 m2,
    Session_stop 7 1%positive one_stopped = Returns tt m1 /\
    Session_stop 9 1%positive m1 = Returns tt m2 /\
    Session_seconds 1%positive m2 = Returns 600 m2.
Proof.
  destruct (stop_overwrites_stop_time one_stopped 1%positive
              {| clock := 1%positive; start_time := 0; stop_time := Some 600 |}
              TenMinuteClock 7 9)
    as (m1 & m2 & H1 & _ & _ & _ & H2 & _ & _ & H3).
  - reflexivity.
  - reflexivity.
  - exists m1, m2. split; [exact H1|]. split; [exact H2|]. exact H3.
Defined.

End Sessions.

(** ** Lifetime of the Clock a Session refers to *)

Section Lifetime.
Implicit Types (m : Memory) (k : Clock) (s : Session).

Lemma Session_on_temporary_run k now m :
  let tmp := fresh (dom (clocks m)) in
  let this := fresh (dom (sessions m)) in
  Session_on_temporary k now m =
    Returns this
      {| clocks := <[tmp := Dead]> (<[tmp := Live k]> (clocks m));
         sessions :=
           <[this := {| clock := tmp; start_time := start k now;
                        stop_time := None |}]> (sessions m) |}.
Proof.
  intros tmp this. unfold Session_on_temporary.
  erewrite bind_returns by reflexivity.
  erewrite bind_returns.
  2:{ apply Session_ctor_run. cbn. apply lookup_insert_eq. }
  reflexivity.
Qed.

Lemma Session_default_is_temporary now :
  Session_default now = Session_on_temporary TimeClock now.
Proof. reflexivity. Qed.

(** C5: [Session s;] captures [start_time] from a [TimeClock], but that
    [TimeClock] is the temporary of the default argument: once the
    declaration is complete the Session's [clock] refers to a dead object,
    and [s.stop()] has undefined behaviour instead of reading the real
    clock. *)
Theorem default_session_clock_dangles m (t0 : Z) :
  exists this m1 s,
    Session_default t0 m = Returns this m1 /\
    sessions m1 !! this = Some s /\
    start_time s = time t0 /\
    clocks m1 !! clock s = Some Dead /\
    forall t1 : Z, Session_stop t1 this m1 = Undefined DeadClock.
Proof.
  rewrite Session_default_is_temporary.
  eexists _, _, _. split; [apply Session_on_temporary_run|].
  cbn. split; [apply lookup_insert_eq|].
  split; [reflexivity|]. cbn.
  split; [apply lookup_insert_eq|].
  intros t1. eapply Session_stop_dangling; cbn; apply lookup_insert_eq.
Qed.

(** The first block of [main] has undefined behaviour at its [s.stop()],
    the statement before its assertion. *)
Lemma main_block1_undefined (t0 t1 : Z) m :
  main_block1 t0 t1 m = Undefined DeadClock.
Proof.
  unfold main_block1. rewrite Session_default_is_temporary.
  rewrite (bind_returns _ _ _ _ _ (Session_on_temporary_run TimeClock t0 m)).
  apply bind_undefined.
  eapply Session_stop_dangling; cbn; apply lookup_insert_eq.
Qed.

(** So has [main], at any calendar times of its clock readings. *)
Lemma main_undefined (t0 t1 t2 t3 t4 t5 : Z) m :
  main t0 t1 t2 t3 t4 t5 m = Undefined DeadClock.
Proof. apply bind_undefined, main_block1_undefined. Qed.

(** The two 10-minute blocks of [main] pass their assertions. *)
Lemma main_block_passes k (t0 t1 : Z) m :
  (forall now, start k now = 0) ->
  (forall now, stop k now = 600) ->
  exists m', main_block k t0 t1 m = Returns tt m'.
Proof.
  intros Hstart Hstop. unfold main_block.
  erewrite bind_returns by reflexivity.
  erewrite bind_returns.
  2:{ apply Session_ctor_run. cbn. apply lookup_insert_eq. }
  erewrite bind_returns.
  2:{ eapply Session_stop_run; cbn; apply lookup_insert_eq. }
  erewrite bind_returns.
  2:{ eapply Session_seconds_run; cbn; [apply lookup_insert_eq | reflexivity]. }
  cbn. rewrite Hstart, Hstop. cbn. eexists. reflexivity.
Qed.

Lemma main_block2_passes (t0 t1 : Z) m :
  exists m', main_block2 t0 t1 m = Returns tt m'.
Proof. apply main_block_passes; reflexivity. Qed.

Lemma main_block3_passes (t0 t1 : Z) m :
  exists m', main_block3 t0 t1 m = Returns tt m'.
Proof. apply main_block_passes; reflexivity. Qed.




End Lifetime.

(** ** What a successful call says about the memory it ran in *)

Section Inversion.
Implicit Types (m : Memory) (k : Clock) (s : Session).

Lemma Session_ctor_inv now c m this m' :
  Session_ctor now c m = Returns this m' ->
  exists k,
    clocks m !! c = Some (Live k) /\
    this = fresh (dom (sessions m)) /\
    m' = {| clocks := clocks m;
            sessions :=
              <[this := {| clock := c; start_time := start k now;
                           stop_time := None |}]> (sessions m) |}.
Proof.
  unfold Session_ctor, call_start, mbind, M_bind, deref.
  destruct (clocks m !! c) as [[k|]|]; try discriminate.
  cbn. intros H. inversion H; subst. exists k. auto.
Qed.

Lemma Session_stop_inv now this m r m' :
  Session_stop now this m = Returns r m' ->
  exists s k,
    sessions m !! this = Some s /\
    clocks m !! clock s = Some (Live k) /\
    m' = {| clocks := clocks m;
            sessions :=
              <[this := {| clock := clock s; start_time := start_time s;
                           stop_time := Some (stop k now) |}]> (sessions m) |}.
Proof.
  unfold Session_stop, call_stop, mbind, M_bind, get_session, deref.
  destruct (sessions m !! this) as [s|]; try discriminate.
  destruct (clocks m !! clock s) as [[k|]|] eqn:Hk; try discriminate.
  cbn. intros H. inversion H; subst. exists s, k. auto.
Qed.

Lemma Session_seconds_inv this m v m' :
  Session_seconds this m = Returns v m' ->
  m' = m /\
  exists s t,
    sessions m !! this = Some s /\ stop_time s = Some t /\
    v = TimeT.sub t (start_time s).
Proof.
  unfold Session_seconds, mbind, M_bind, get_session.
  destruct (sessions m !! this) as [s|]; try discriminate.
  destruct (stop_time s) as [t|] eqn:Ht; try discriminate.
  cbn. intros H. inversion H; subst. split; [reflexivity|].
  exists s, t. auto.
Qed.

(** [seconds()] reads nothing but the Session it is called on. *)
Lemma Session_seconds_value this m :
  value (Session_seconds this m) =
    match sessions m !! this with
    | Some s =>
        match stop_time s with
        | Some t => Some (TimeT.sub t (start_time s))
        | None => None
        end
    | None => None
    end.
Proof.
  unfold Session_seconds, mbind, M_bind, get_session.
  destruct (sessions m !! this) as [s|]; [|reflexivity].
  destruct (stop_time s); reflexivity.
Qed.

(** A call changes no Clock and no Session other than its target. *)
Lemma perform_frame c m r m' other :
  is_Some (sessions m !! other) ->
  target c <> Some other ->
  perform c m = Returns r m' ->
  sessions m' !! other = sessions m !! other /\ clocks m' = clocks m.
Proof.
  intros Hother Htarget. destruct c as [now k | now this | this]; cbn.
  - unfold mbind, M_bind.
    destruct (Session_ctor now k m) as [new m1| |] eqn:Hrun; try discriminate.
    intros H; inversion H; subst.
    apply Session_ctor_inv in Hrun as (k' & _ & Hnew & ->). cbn.
    split; [|reflexivity]. apply lookup_insert_ne.
    intros <-. subst new. rewrite fresh_session_unused in Hother.
    now destruct Hother.
  - unfold mbind, M_bind.
    destruct (Session_stop now this m) as [u m1| |] eqn:Hrun; try discriminate.
    intros H; inversion H; subst.
    apply Session_stop_inv in Hrun as (s & k & _ & _ & ->). cbn.
    split; [|reflexivity]. apply lookup_insert_ne.
    intros <-. now apply Htarget.
  - unfold mbind, M_bind.
    destruct (Session_seconds this m) as [v m1| |] eqn:Hrun; try discriminate.
    intros H; inversion H; subst.
    apply Session_seconds_inv in Hrun as (-> & _). split; reflexivity.
Qed.

Lemma perform_all_frame cs m rs m' other :
  is_Some (sessions m !! other) ->
  Forall (fun c => target c <> Some other) cs ->
  perform_all cs m = Returns rs m' ->
  sessions m' !! other = sessions m !! other /\ clocks m' = clocks m.
Proof.
  intros Hother Hcs. revert m rs m' Hother.
  induction Hcs as [|c cs Hc Hcs IH]; intros m rs m' Hother; cbn.
  - intros H; inversion H; subst. split; reflexivity.
  - unfold mbind at 1, M_bind at 1.
    destruct (perform c m) as [r m1| |] eqn:Hrun; try discriminate.
    unfold mbind at 1, M_bind at 1.
    destruct (perform_all cs m1) as [rs' m2| |] eqn:Hrest; try discriminate.
    intros H; inversion H; subst.
    destruct (perform_frame c m r m1 other Hother Hc Hrun) as [Hs1 Hc1].
    destruct (IH m1 rs' m' (ltac:(now rewrite Hs1)) Hrest) as [Hs2 Hc2].
    split; congruence.
Qed.

End Inversion.

(** ** Independence of Sessions *)

Section Independence.
Implicit Types (m : Memory) (k : Clock) (s : Session).

Lemma fresh_after_insert {V} (mp : gmap loc V) (a : loc) (x : V) :
  fresh (dom (<[a := x]> mp)) <> a.
Proof.
  intros Heq.
  apply (is_fresh (dom (<[a := x]> mp))).
  rewrite Heq. apply elem_of_dom. rewrite lookup_insert_eq. eauto.
Qed.

(** Two Sessions on two Clock objects at different addresses, stopped in
    either order, report the [stop() - start()] of their own Clock. *)
Lemma two_sessions_run (A B : Z) (a_first : bool) (t1 t2 t3 t4 : Z) m :
  exists m',
    two_sessions A B a_first t1 t2 t3 t4 m =
      Returns (TimeT.sub (TimeT.of_int A) 0, TimeT.sub (TimeT.of_int B) 0) m'.
Proof.
  unfold two_sessions.
  set (ca := fresh (dom (clocks m))).
  erewrite bind_returns by reflexivity. cbn [clocks sessions].
  set (cb := fresh (dom (<[ca := Live (MockClock A)]> (clocks m)))).
  assert (Hc : cb <> ca) by apply fresh_after_insert.
  erewrite bind_returns by reflexivity.
  set (sa := fresh (dom (sessions m))).
  erewrite bind_returns.
  2:{ apply (Session_ctor_run _ t1 ca (MockClock A)). cbn.
      rewrite lookup_insert_ne by exact Hc. apply lookup_insert_eq. }
  cbn [clocks sessions].
  erewrite bind_returns.
  2:{ apply (Session_ctor_run _ t2 cb (MockClock B)). cbn.
      apply lookup_insert_eq. }
  cbn [clocks sessions]. fold sa.
  set (SA := {| clock := ca; start_time := start (MockClock A) t1;
                stop_time := None |}).
  set (SB := {| clock := cb; start_time := start (MockClock B) t2;
                stop_time := None |}).
  set (sb := fresh (dom (<[sa := SA]> (sessions m)))).
  assert (Hs : sb <> sa) by apply fresh_after_insert.
  destruct a_first.
  - erewrite bind_returns.
    2:{ erewrite bind_returns.
        2:{ apply (Session_stop_run _ t3 sa SA (MockClock A)); cbn.
            - rewrite lookup_insert_ne by exact Hs. apply lookup_insert_eq.
            - rewrite lookup_insert_ne by exact Hc. apply lookup_insert_eq. }
        apply (Session_stop_run _ t4 sb SB (MockClock B)); cbn.
        - rewrite lookup_insert_ne by congruence. apply lookup_insert_eq.
        - apply lookup_insert_eq. }
    erewrite bind_returns.
    2:{ eapply Session_seconds_run;
          [cbn; rewrite lookup_insert_ne by exact Hs;
            apply lookup_insert_eq | reflexivity]. }
    erewrite bind_returns.
    2:{ eapply Session_seconds_run;
          [cbn; apply lookup_insert_eq | reflexivity]. }
    eexists. reflexivity.
  - erewrite bind_returns.
    2:{ erewrite bind_returns.
        2:{ apply (Session_stop_run _ t3 sb SB (MockClock B)); cbn.
            - apply lookup_insert_eq.
            - apply lookup_insert_eq. }
        apply (Session_stop_run _ t4 sa SA (MockClock A)); cbn.
        - rewrite !lookup_insert_ne by exact Hs. apply lookup_insert_eq.
        - rewrite lookup_insert_ne by exact Hc. apply lookup_insert_eq. }
    erewrite bind_returns.
    2:{ eapply Session_seconds_run;
          [cbn; apply lookup_insert_eq | reflexivity]. }
    erewrite bind_returns.
    2:{ eapply Session_seconds_run;
          [cbn; rewrite lookup_insert_ne by congruence;
            apply lookup_insert_eq | reflexivity]. }
    eexists. reflexivity.
Qed.

(** C7: two Sessions on independent [MockClock<A>] and [MockClock<B>]
    instances each report their own duration after [stop()], in whichever
    order they are stopped; and no sequence of calls on other Sessions
    changes a Session, any Clock, or what [seconds()] reports for it. *)
Theorem sessions_independent (A B : Z) :
  TimeT.int_range A ->
  TimeT.int_range B ->
  (forall m (a_first : bool) (t1 t2 t3 t4 : Z),
     exists m', two_sessions A B a_first t1 t2 t3 t4 m = Returns (A, B) m') /\
  (forall m other cs rs m',
     is_Some (sessions m !! other) ->
     Forall (fun c => target c <> Some other) cs ->
     perform_all cs m = Returns rs m' ->
     sessions m' !! other = sessions m !! other /\
     clocks m' = clocks m /\
     value (Session_seconds other m') = value (Session_seconds other m)).
Proof.
  intros HA HB. split.
  - intros m a_first t1 t2 t3 t4.
    destruct (two_sessions_run A B a_first t1 t2 t3 t4 m) as [m' Hrun].
    exists m'. rewrite Hrun.
    rewrite !of_int_id by assumption.
    rewrite !sub_zero_r by now apply int_range_in_range.
    reflexivity.
  - intros m other cs rs m' Hother Hcs Hrun.
    destruct (perform_all_frame cs m rs m' other Hother Hcs Hrun) as [Hs Hc].
    split; [exact Hs|]. split; [exact Hc|].
    rewrite !Session_seconds_value. now rewrite Hs.
Qed.

Lemma sessions_independent_witness :
  TimeT.int_range 600 /\ TimeT.int_range 2 /\
  exists m',
    two_sessions 600 2 false 10 11 12 13 empty_memory = Returns (600, 2) m'.
Proof.
  assert (H600 : TimeT.int_range 600) by (unfold TimeT.int_range; vm_compute; split; discriminate).
  assert (H2 : TimeT.int_range 2) by (unfold TimeT.int_range; vm_compute; split; discriminate).
  split; [exact H600|]. split; [exact H2|].
  apply (proj1 (sessions_independent 600 2 H600 H2) empty_memory false 10 11 12 13).
Defined.

End Independence.

(** ** Clocks that no Session can tell apart *)

Section Equivalence.
Implicit Types (m : Memory) (k : Clock) (s : Session).

Lemma clock_equiv_refl k : clock_equiv k k.
Proof. intros now. split; reflexivity. Qed.

Lemma memory_equiv_refl m : memory_equiv m m.
Proof.
  split; [reflexivity|]. intros a.
  destruct (clocks m !! a) as [[k|]|]; cbn; auto using clock_equiv_refl.
Qed.

Lemma memory_equiv_dom m1 m2 :
  memory_equiv m1 m2 -> dom (clocks m1) = dom (clocks m2).
Proof.
  intros [_ H]. apply set_eq. intros a. rewrite !elem_of_dom.
  specialize (H a).
  destruct (clocks m1 !! a), (clocks m2 !! a); try contradiction;
    split; intros [? ?]; try discriminate; eauto.
Qed.

Lemma bind_equiv {A B} (c1 c2 : M A) (f1 f2 : A -> M B) m1 m2 :
  outcome_equiv (c1 m1) (c2 m2) ->
  (forall a m1' m2',
     memory_equiv m1' m2' -> outcome_equiv (f1 a m1') (f2 a m2')) ->
  outcome_equiv ((c1 ≫= f1) m1) ((c2 ≫= f2) m2).
Proof.
  intros Hc Hf. unfold mbind, M_bind.
  destruct (c1 m1), (c2 m2); cbn in Hc; try contradiction; cbn; auto.
  destruct Hc as [-> Hm]. now apply Hf.
Qed.

Lemma ret_equiv {A} (a : A) m1 m2 :
  memory_equiv m1 m2 ->
  outcome_equiv ((mret a : M A) m1) ((mret a : M A) m2).
Proof. intros H. split; [reflexivity | exact H]. Qed.

Lemma new_clock_equiv k1 k2 m1 m2 :
  clock_equiv k1 k2 ->
  memory_equiv m1 m2 ->
  outcome_equiv (new_clock k1 m1) (new_clock k2 m2).
Proof.
  intros Hk Hm. unfold new_clock. cbn.
  rewrite (memory_equiv_dom m1 m2 Hm).
  split; [reflexivity|]. destruct Hm as [Hs Hc].
  split; [exact Hs|]. cbn. intros a.
  destruct (decide (a = fresh (dom (clocks m2)))) as [->|Hne].
  - rewrite !lookup_insert_eq. exact Hk.
  - rewrite !lookup_insert_ne by congruence. apply Hc.
Qed.

Lemma call_start_equiv a now m1 m2 :
  memory_equiv m1 m2 ->
  outcome_equiv (call_start a now m1) (call_start a now m2).
Proof.
  intros Hm. unfold call_start, mbind, M_bind, deref.
  pose proof (proj2 Hm a) as Ha.
  destruct (clocks m1 !! a) as [[k1|]|], (clocks m2 !! a) as [[k2|]|];
    cbn in Ha; try contradiction; cbn; auto.
  split; [apply Ha | exact Hm].
Qed.

Lemma call_stop_equiv a now m1 m2 :
  memory_equiv m1 m2 ->
  outcome_equiv (call_stop a now m1) (call_stop a now m2).
Proof.
  intros Hm. unfold call_stop, mbind, M_bind, deref.
  pose proof (proj2 Hm a) as Ha.
  destruct (clocks m1 !! a) as [[k1|]|], (clocks m2 !! a) as [[k2|]|];
    cbn in Ha; try contradiction; cbn; auto.
  split; [apply Ha | exact Hm].
Qed.

Lemma get_session_equiv this m1 m2 :
  memory_equiv m1 m2 ->
  outcome_equiv (get_session this m1) (get_session this m2).
Proof.
  intros Hm. unfold get_session. rewrite (proj1 Hm).
  destruct (sessions m2 !! this); cbn; auto.
Qed.

Lemma put_session_equiv this s m1 m2 :
  memory_equiv m1 m2 ->
  outcome_equiv (put_session this s m1) (put_session this s m2).
Proof.
  intros [Hs Hc]. unfold put_session. cbn.
  split; [reflexivity|]. split; [cbn; now rewrite Hs | exact Hc].
Qed.

Lemma alloc_session_equiv s m1 m2 :
  memory_equiv m1 m2 ->
  outcome_equiv (alloc_session s m1) (alloc_session s m2).
Proof.
  intros [Hs Hc]. unfold alloc_session. cbn. rewrite Hs.
  split; [reflexivity|]. split; [reflexivity | exact Hc].
Qed.

Lemma Session_ctor_equiv now c m1 m2 :
  memory_equiv m1 m2 ->
  outcome_equiv (Session_ctor now c m1) (Session_ctor now c m2).
Proof.
  intros Hm. unfold Session_ctor.
  apply bind_equiv; [now apply call_start_equiv|].
  intros t m1' m2' Hm'. now apply alloc_session_equiv.
Qed.

Lemma Session_stop_equiv now this m1 m2 :
  memory_equiv m1 m2 ->
  outcome_equiv (Session_stop now this m1) (Session_stop now this m2).
Proof.
  intros Hm. unfold Session_stop.
  apply bind_equiv; [now apply get_session_equiv|].
  intros s m1' m2' Hm'.
  apply bind_equiv; [now apply call_stop_equiv|].
  intros t m1'' m2'' Hm''. now apply put_session_equiv.
Qed.

Lemma Session_seconds_equiv this m1 m2 :
  memory_equiv m1 m2 ->
  outcome_equiv (Session_seconds this m1) (Session_seconds this m2).
Proof.
  intros Hm. unfold Session_seconds.
  apply bind_equiv; [now apply get_session_equiv|].
  intros s m1' m2' Hm'.
  destruct (stop_time s); [now apply ret_equiv | reflexivity].
Qed.

Lemma perform_equiv c m1 m2 :
  memory_equiv m1 m2 -> outcome_equiv (perform c m1) (perform c m2).
Proof.
  intros Hm. destruct c as [now k | now this | this]; cbn [perform];
    (apply bind_equiv;
     [ first [ now apply Session_ctor_equiv
             | now apply Session_stop_equiv
             | now apply Session_seconds_equiv ]
     | intros; now apply ret_equiv ]).
Qed.

Lemma perform_all_equiv cs m1 m2 :
  memory_equiv m1 m2 ->
  outcome_equiv (perform_all cs m1) (perform_all cs m2).
Proof.
  revert m1 m2. induction cs as [|c cs IH]; intros m1 m2 Hm; cbn [perform_all].
  - now apply ret_equiv.
  - apply bind_equiv; [now apply perform_equiv|].
    intros r m1' m2' Hm'.
    apply bind_equiv; [now apply IH|].
    intros rs m1'' m2'' Hm''. now apply ret_equiv.
Qed.

(** C10: [TenMinuteClock] and [MockClock<600>] both return 0 from
    [start()] and 600 from [stop()], and a client that makes any sequence
    of Session calls sees the same replies and ends in an equivalent
    memory whichever of the two Clocks it defined. *)
Theorem TenMinuteClock_equiv_MockClock_600 :
  (forall now : Z,
     start TenMinuteClock now = 0 /\ stop TenMinuteClock now = 600 /\
     start (MockClock 600) now = 0 /\ stop (MockClock 600) now = 600) /\
  clock_equiv TenMinuteClock (MockClock 600) /\
  forall (client : loc -> list call) m,
    outcome_equiv (run_with TenMinuteClock client m)
                  (run_with (MockClock 600) client m).
Proof.
  assert (Hk : clock_equiv TenMinuteClock (MockClock 600))
    by (intros now; split; reflexivity).
  split; [intros now; repeat split; reflexivity|].
  split; [exact Hk|].
  intros client m. unfold run_with.
  apply bind_equiv.
  - apply new_clock_equiv; [exact Hk | apply memory_equiv_refl].
  - intros c m1 m2 Hm. now apply perform_all_equiv.
Qed.

End Equivalence.

(** ** Further properties of Session, the Clocks and main *)

Section Further.
Implicit Types (m : Memory) (k : Clock) (s : Session).

(** X1: on a live Clock, construction at calendar time [t0] and [stop()]
    at calendar time [t1] make [seconds()] the [time_t] difference of
    [clock.stop()] read at [t1] and [clock.start()] read at [t0]. *)
Theorem elapsed_is_stop_minus_start m c k (t0 t1 : Z) :
  clocks m !! c = Some (Live k) ->
  exists this m1 m2,
    Session_ctor t0 c m = Returns this m1 /\
    Session_stop t1 this m1 = Returns tt m2 /\
    Session_seconds this m2 =
      Returns (TimeT.sub (stop k t1) (start k t0)) m2.
Proof.
  intros Hk. eexists _, _, _.
  split; [apply (Session_ctor_run _ _ _ _ Hk)|].
  split.
  - apply (Session_stop_run _ t1 _
             {| clock := c; start_time := start k t0; stop_time := None |} k);
      cbn; [apply lookup_insert_eq | exact Hk].
  - apply (Session_seconds_run _ _
             {| clock := c; start_time := start k t0;
                stop_time := Some (stop k t1) |});
      cbn; [apply lookup_insert_eq | reflexivity].
Qed.

Lemma elapsed_is_stop_minus_start_witness :
  exists this m1 m2,
    Session_ctor 3 1%positive one_clock = Returns this m1 /\
    Session_stop 8 this m1 = Returns tt m2 /\
    Session_seconds this m2 =
      Returns (TimeT.sub (stop TenMinuteClock 8) (start TenMinuteClock 3)) m2.
Proof.
  apply (elapsed_is_stop_minus_start one_clock 1%positive TenMinuteClock 3 8).
  reflexivity.
Defined.

Lemma time_in_range (t : Z) : TimeT.in_range t -> time t = t.
Proof. apply wrap_in_range. Qed.

(** X2: a Session on a live [TimeClock], constructed at calendar time [t0]
    and stopped at calendar time [t1] with [0 <= t0 <= t1] representable,
    reports exactly [t1 - t0] seconds. *)
Theorem TimeClock_elapsed m c (t0 t1 : Z) :
  clocks m !! c = Some (Live TimeClock) ->
  0 <= t0 <= t1 ->
  t1 <= TimeT.max_value ->
  exists this m1 m2,
    Session_ctor t0 c m = Returns this m1 /\
    Session_stop t1 this m1 = Returns tt m2 /\
    Session_seconds this m2 = Returns (t1 - t0) m2.
Proof.
  intros Hk Ht Hmax.
  assert (Hmin : TimeT.min_value <= 0) by (vm_compute; discriminate).
  assert (H0 : TimeT.in_range t0) by (unfold TimeT.in_range; lia).
  assert (H1 : TimeT.in_range t1) by (unfold TimeT.in_range; lia).
  assert (Hd : TimeT.in_range (t1 - t0)) by (unfold TimeT.in_range; lia).
  eexists _, _, _.
  split; [apply (Session_ctor_run _ _ _ _ Hk)|].
  split.
  - apply (Session_stop_run _ t1 _
             {| clock := c; start_time := time t0; stop_time := None |}
             TimeClock); cbn; [apply lookup_insert_eq | exact Hk].
  - replace (t1 - t0) with (TimeT.sub (time t1) (time t0))
      by (rewrite !time_in_range by assumption; now apply sub_exact).
    apply (Session_seconds_run _ _
             {| clock := c; start_time := time t0;
                stop_time := Some (time t1) |});
      cbn; [apply lookup_insert_eq | reflexivity].
Qed.

Lemma TimeClock_elapsed_witness :
  exists this m1 m2,
    Session_ctor 1700000000 1%positive one_time_clock = Returns this m1 /\
    Session_stop 1700000002 this m1 = Returns tt m2 /\
    Session_seconds this m2 = Returns (1700000002 - 1700000000) m2.
Proof.
  apply (TimeClock_elapsed one_time_clock 1%positive 1700000000 1700000002).
  - reflexivity.
  - lia.
  - vm_compute. discriminate.
Defined.

(** X3: right after construction, on any live Clock, [seconds()] reads a
    [stop_time] that was never written: it has no defined value. *)
Theorem seconds_before_stop_undefined m c k (t0 : Z) :
  clocks m !! c = Some (Live k) ->
  exists this m1,
    Session_ctor t0 c m = Returns this m1 /\
    Session_seconds this m1 = Undefined IndeterminateValue.
Proof.
  intros Hk. eexists _, _.
  split; [apply (Session_ctor_run _ _ _ _ Hk)|].
  apply (Session_seconds_unstopped _ _
           {| clock := c; start_time := start k t0; stop_time := None |});
    cbn; [apply lookup_insert_eq | reflexivity].
Qed.

Lemma seconds_before_stop_undefined_witness :
  exists this m1,
    Session_ctor 0 1%positive one_clock = Returns this m1 /\
    Session_seconds this m1 = Undefined IndeterminateValue.
Proof.
  apply (seconds_before_stop_undefined one_clock 1%positive TenMinuteClock 0).
  reflexivity.
Defined.

(** X5: when the Clock of a stopped Session reaches the end of its
    lifetime, [seconds()] still reports the same duration (it reads the
    Session only), while a further [stop()] has undefined behaviour. *)
Theorem stopped_session_outlives_clock m this s (t : time_t) (now : Z) :
  sessions m !! this = Some s ->
  stop_time s = Some t ->
  exists m',
    end_clock (clock s) m = Returns tt m' /\
    Session_seconds this m' = Returns (TimeT.sub t (start_time s)) m' /\
    Session_stop now this m' = Undefined DeadClock.
Proof.
  intros Hs Ht. eexists. split; [reflexivity|]. split.
  - apply (Session_seconds_run _ _ s t); [exact Hs | exact Ht].
  - apply (Session_stop_dangling _ _ _ s); [exact Hs|].
    cbn. apply lookup_insert_eq.
Qed.

Lemma stopped_session_outlives_clock_witness :
  exists m',
    end_clock 1%positive one_stopped = Returns tt m' /\
    Session_seconds 1%positive m' = Returns (TimeT.sub 600 0) m' /\
    Session_stop 9 1%positive m' = Undefined DeadClock.
Proof.
  apply (stopped_session_outlives_clock one_stopped 1%positive
           {| clock := 1%positive; start_time := 0; stop_time := Some 600 |}
           600 9).
  - reflexivity.
  - reflexivity.
Defined.

(** X6: the end of the lifetime of one Clock leaves the Sessions on other
    live Clocks as they were: their [stop()] returns and stores the same
    reading as it would have before. *)
Theorem end_clock_spares_other_sessions m (c this : loc) s k (now : Z) :
  sessions m !! this = Some s ->
  clocks m !! clock s = Some (Live k) ->
  clock s <> c ->
  exists m' m1 m1',
    end_clock c m = Returns tt m' /\
    Session_stop now this m = Returns tt m1 /\
    Session_stop now this m' = Returns tt m1' /\
    sessions m1' = sessions m1 /\
    clocks m1' = clocks m'.
Proof.
  intros Hs Hk Hne. eexists _, _, _.
  split; [reflexivity|].
  split; [apply (Session_stop_run _ _ _ _ _ Hs Hk)|].
  split.
  - apply (Session_stop_run _ now this s k); [exact Hs|].
    cbn. rewrite lookup_insert_ne by congruence. exact Hk.
  - split; reflexivity.
Qed.

Lemma end_clock_spares_other_sessions_witness :
  exists m' m1 m1',
    end_clock 2%positive one_stopped = Returns tt m' /\
    Session_stop 4 1%positive one_stopped = Returns tt m1 /\
    Session_stop 4 1%positive m' = Returns tt m1' /\
    sessions m1' = sessions m1 /\
    clocks m1' = clocks m'.
Proof.
  apply (end_clock_spares_other_sessions one_stopped 2%positive 1%positive
           {| clock := 1%positive; start_time := 0; stop_time := Some 600 |}
           TenMinuteClock 4).
  - reflexivity.
  - reflexivity.
  - discriminate.
Defined.

(** What one call keeps: every Clock, and the [clock] and [start_time] of
    every Session that exists. *)
Lemma perform_keeps c m r m' :
  perform c m = Returns r m' ->
  clocks m' = clocks m /\
  forall this s,
    sessions m !! this = Some s ->
    exists s',
      sessions m' !! this = Some s' /\
      clock s' = clock s /\ start_time s' = start_time s.
Proof.
  destruct c as [now k | now target | target]; cbn; unfold mbind, M_bind.
  - destruct (Session_ctor now k m) as [new m1| |] eqn:Hrun; try discriminate.
    intros H; inversion H; subst.
    apply Session_ctor_inv in Hrun as (k' & _ & Hnew & ->). cbn.
    split; [reflexivity|]. intros this s Hs. exists s.
    split; [|split; reflexivity].
    rewrite lookup_insert_ne; [exact Hs|].
    intros <-. subst new. rewrite fresh_session_unused in Hs. discriminate.
  - destruct (Session_stop now target m) as [u m1| |] eqn:Hrun;
      try discriminate.
    intros H; inversion H; subst.
    apply Session_stop_inv in Hrun as (s0 & k & Hs0 & _ & ->). cbn.
    split; [reflexivity|]. intros this s Hs.
    destruct (decide (target = this)) as [->|Hne].
    + rewrite lookup_insert_eq. eexists. split; [reflexivity|].
      assert (s0 = s) by congruence. subst s0. split; reflexivity.
    + rewrite lookup_insert_ne by exact Hne. exists s. auto.
  - destruct (Session_seconds target m) as [v m1| |] eqn:Hrun;
      try discriminate.
    intros H; inversion H; subst.
    apply Session_seconds_inv in Hrun as (-> & _).
    split; [reflexivity|]. intros this s Hs. exists s. auto.
Qed.

Lemma perform_all_keeps cs :
  forall m rs m',
    perform_all cs m = Returns rs m' ->
    clocks m' = clocks m /\
    forall this s,
      sessions m !! this = Some s ->
      exists s',
        sessions m' !! this = Some s' /\
        clock s' = clock s /\ start_time s' = start_time s.
Proof.
  induction cs as [|c cs IH]; intros m rs m'; cbn.
  - intros H; inversion H; subst. split; [reflexivity|].
    intros this s Hs. exists s. auto.
  - unfold mbind at 1, M_bind at 1.
    destruct (perform c m) as [r m1| |] eqn:Hrun; try discriminate.
    unfold mbind at 1, M_bind at 1.
    destruct (perform_all cs m1) as [rs' m2| |] eqn:Hrest; try discriminate.
    intros H; inversion H; subst.
    destruct (perform_keeps c m r m1 Hrun) as [Hc1 Hk1].
    destruct (IH m1 rs' m' Hrest) as [Hc2 Hk2].
    split; [congruence|]. intros this s Hs.
    destruct (Hk1 this s Hs) as (s1 & Hs1 & Hcl1 & Hst1).
    destruct (Hk2 this s1 Hs1) as (s2 & Hs2 & Hcl2 & Hst2).
    exists s2. split; [exact Hs2|]. split; congruence.
Qed.

(** X7: no sequence of Session calls creates, changes or ends a Clock,
    none removes a Session, and none changes the [clock] or the
    [start_time] of a Session: both are fixed at construction. *)
Theorem calls_keep_clocks_and_identity cs m rs m' :
  perform_all cs m = Returns rs m' ->
  clocks m' = clocks m /\
  forall this s,
    sessions m !! this = Some s ->
    exists s',
      sessions m' !! this = Some s' /\
      clock s' = clock s /\ start_time s' = start_time s.
Proof. apply perform_all_keeps. Qed.

Lemma calls_keep_clocks_and_identity_witness :
  exists rs m',
    perform_all [Stop 7 1%positive; Seconds 1%positive;
                 Construct 8 1%positive] one_stopped = Returns rs m' /\
    clocks m' = clocks one_stopped.
Proof.
  eexists _, _. split; [reflexivity|].
  eapply (calls_keep_clocks_and_identity
            [Stop 7 1%positive; Seconds 1%positive; Construct 8 1%positive]
            one_stopped).
  reflexivity.
Defined.

(** X8: a Session whose Clock is dead stays unusable: after a new Clock
    object is defined and any sequence of Session calls has run, [stop()]
    on it still has undefined behaviour. *)
Theorem dangling_session_stays_dangling m this s k client rs m' :
  sessions m !! this = Some s ->
  clocks m !! clock s = Some Dead ->
  run_with k client m = Returns rs m' ->
  forall now : Z, Session_stop now this m' = Undefined DeadClock.
Proof.
  intros Hs Hdead Hrun now. unfold run_with in Hrun.
  rewrite (bind_returns _ _ m (fresh (dom (clocks m)))
             {| clocks := <[fresh (dom (clocks m)) := Live k]> (clocks m);
                sessions := sessions m |}) in Hrun by reflexivity.
  destruct (perform_all_keeps _ _ _ _ Hrun) as [Hclocks Hkeep].
  destruct (Hkeep this s Hs) as (s' & Hs' & Hcl & _).
  apply (Session_stop_dangling _ _ _ s' Hs').
  rewrite Hclocks, Hcl. cbn.
  rewrite lookup_insert_ne; [exact Hdead|].
  intros Heq. pose proof (fresh_clock_unused m) as Hfresh.
  rewrite Heq, Hdead in Hfresh. discriminate.
Qed.

Lemma dangling_session_stays_dangling_witness :
  exists rs m',
    run_with TenMinuteClock (fun c => [Construct 5 c; Seconds 1%positive])
      one_dangling = Returns rs m' /\
    Session_stop 9 1%positive m' = Undefined DeadClock.
Proof.
  eexists _, _. split; [reflexivity|].
  eapply (dangling_session_stays_dangling one_dangling 1%positive
            {| clock := 1%positive; start_time := 0; stop_time := Some 600 |}
            TenMinuteClock
            (fun c => [Construct 5 c; Seconds 1%positive])).
  - reflexivity.
  - reflexivity.
  - reflexivity.
Defined.

(** A block of [main] on a Clock with [start() = 0] and [stop() = 600]:
    the assertion holds, and at the end of the block the Session is gone
    and the Clock is dead. *)
Lemma main_block_run k (t0 t1 : Z) m :
  (forall now, start k now = 0) ->
  (forall now, stop k now = 600) ->
  main_block k t0 t1 m =
    Returns tt
      {| clocks := <[fresh (dom (clocks m)) := Dead]> (clocks m);
         sessions := sessions m |}.
Proof.
  intros Hstart Hstop. unfold main_block.
  erewrite bind_returns by reflexivity.
  erewrite bind_returns.
  2:{ apply Session_ctor_run. cbn. apply lookup_insert_eq. }
  erewrite bind_returns.
  2:{ eapply Session_stop_run; cbn; apply lookup_insert_eq. }
  erewrite bind_returns.
  2:{ eapply Session_seconds_run; cbn; [apply lookup_insert_eq | reflexivity]. }
  cbn [start_time]. rewrite Hstart, Hstop.
  change (TimeT.sub 600 0) with 600.
  change (SessionReport.displayTime 600 =? "00:10:00")%string with true.
  unfold mbind, M_bind, assert, end_session, end_clock. cbn.
  f_equal. f_equal.
  - apply insert_insert_eq.
  - rewrite insert_insert_eq, delete_insert_eq.
    apply delete_id, fresh_session_unused.
Qed.

(** X9: the two 10-minute blocks of [main], on [TenMinuteClock] and on
    [MockClock<10 * 60>], pass their assertion at any calendar times and
    from any memory, and leave the memory as it was except for one dead
    Clock cell: the Session is gone and no Session was changed. *)
Theorem main_blocks_pass_and_clean_up (t0 t1 : Z) m :
  let after :=
    {| clocks := <[fresh (dom (clocks m)) := Dead]> (clocks m);
       sessions := sessions m |} in
  main_block2 t0 t1 m = Returns tt after /\
  main_block3 t0 t1 m = Returns tt after.
Proof.
  split; apply main_block_run; reflexivity.
Qed.

End Further.
